(** * pkg/client/restclient.go : RESTClient, its constructor, verb dispatch
      and the default completion poller

    The Go file is embedded over an explicit store: [*url.URL] and
    [*RESTClient] are addresses into two typed heaps, a nil dereference is a
    panic, and the two observable effects of [DefaultPoll] ([glog.Infof] and
    [time.Sleep]) are recorded, in order, in an event log. *)

From Stdlib Require Import ZArith String Ascii List Lia.
From stdpp Require Import base option gmap strings.

Local Open Scope string_scope.
Local Open Scope Z_scope.

(** ** Go strings *)

(** [strings.HasSuffix]:
    [len(s) >= len(suffix) && s[len(s)-len(suffix):] == suffix]. *)
Definition strings_HasSuffix (s suffix : string) : bool :=
  (String.length suffix <=? String.length s)%nat
  && String.eqb
       (substring (String.length s - String.length suffix)
                  (String.length suffix) s)
       suffix.

(** The property [strings_HasSuffix] is meant to decide. *)
Definition ends_with (s suffix : string) : Prop :=
  exists front : string, s = front +:+ suffix.

(** ** Pointers *)

Definition loc := positive.

(** A Go pointer: [None] is nil. *)
Definition ptr := option loc.

(** ** net/url.URL, as the standard library declares it *)

Record Userinfo := mkUserinfo {
  username : string;
  password : string;
  passwordSet : bool
}.

Record URL := mkURL {
  Scheme : string;
  Opaque : string;
  User : option Userinfo;
  Host : string;
  Path : string;
  RawQuery : string;
  Fragment : string
}.

Definition set_Path (u : URL) (p : string) : URL :=
  mkURL (Scheme u) (Opaque u) (User u) (Host u) p (RawQuery u) (Fragment u).

Definition set_RawQuery (u : URL) (q : string) : URL :=
  mkURL (Scheme u) (Opaque u) (User u) (Host u) (Path u) q (Fragment u).

Definition set_Fragment (u : URL) (f : string) : URL :=
  mkURL (Scheme u) (Opaque u) (User u) (Host u) (Path u) (RawQuery u) f.

(** ** time.Duration *)

(** An int64 count of nanoseconds. *)
Definition Duration := Z.

Definition time_Second : Duration := 1000000000.

(** ** Opaque collaborators *)

(** [runtime.Codec] and [HTTPClient] are interfaces the client only passes
    along; an interface value is nil or a reference. *)
Inductive runtime_Codec := CodecNil | CodecRef (id : positive).

Inductive HTTPClient := HTTPClientNil | HTTPClientRef (id : positive).

(** ** PollFunc values

    A [PollFunc] is a function value.  The ones this file creates are method
    values [c.DefaultPoll], which bind the receiver pointer [c]; any other
    function a caller stores in [Poller] is kept by identity. *)
Inductive PollFunc :=
| DefaultPoll_of (c : ptr)
| PollFunc_lit (id : positive).

(** ** The request builder *)

Module Request.

(** Modelled from the spec: the request builder ([Request], [NewRequest] and
    its chainable setters) is declared in request.go, which is not part of
    the sources at hand.  The spec describes it as a fluent object that is
    seeded with the transport handle, the verb, the base address, the codec
    and the legacy flag (applied both to namespace encoding and to resource
    casing), and that accumulates the target resource collection, the target
    resource name, the poller, the sync flag and the timeout.  A setter
    mutates the builder and returns it; since every chain in restclient.go
    is linear, the builder is passed by value here. *)
Record t := mk {
  client : HTTPClient;
  verb : string;
  baseURL : ptr;
  codec : runtime_Codec;
  namespaceInQuery : bool;
  preserveResourceCase : bool;
  resource : string;
  resourceName : string;
  poller : option PollFunc;
  sync : bool;
  timeout : Duration
}.

(** Modelled from the spec: a fresh builder carries what it was seeded with
    and nothing else. *)
Definition NewRequest (cl : HTTPClient) (v : string) (base : ptr)
    (cd : runtime_Codec) (nsInQuery preserveCase : bool) : t :=
  mk cl v base cd nsInQuery preserveCase "" "" None false 0.

(** Modelled from the spec: sets the target resource collection. *)
Definition Resource (r : t) (res : string) : t :=
  mk (client r) (verb r) (baseURL r) (codec r) (namespaceInQuery r)
     (preserveResourceCase r) res (resourceName r) (poller r) (sync r)
     (timeout r).

(** Modelled from the spec: sets the target resource name. *)
Definition Name (r : t) (n : string) : t :=
  mk (client r) (verb r) (baseURL r) (codec r) (namespaceInQuery r)
     (preserveResourceCase r) (resource r) n (poller r) (sync r)
     (timeout r).

(** Modelled from the spec: the poller override; nil disables polling. *)
Definition Poller (r : t) (p : option PollFunc) : t :=
  mk (client r) (verb r) (baseURL r) (codec r) (namespaceInQuery r)
     (preserveResourceCase r) (resource r) (resourceName r) p (sync r)
     (timeout r).

(** Modelled from the spec: the builder with no poller installed. *)
Definition NoPoll (r : t) : t := Poller r None.

(** Modelled from the spec: the synchronous/asynchronous flag. *)
Definition Sync (r : t) (s : bool) : t :=
  mk (client r) (verb r) (baseURL r) (codec r) (namespaceInQuery r)
     (preserveResourceCase r) (resource r) (resourceName r) (poller r) s
     (timeout r).

(** Modelled from the spec: the timeout threaded into the builder. *)
Definition Timeout (r : t) (d : Duration) : t :=
  mk (client r) (verb r) (baseURL r) (codec r) (namespaceInQuery r)
     (preserveResourceCase r) (resource r) (resourceName r) (poller r)
     (sync r) d.

End Request.

(** ** RESTClient *)

Record RESTClient := mkRESTClient {
  baseURL : ptr;
  apiVersion : string;
  LegacyBehavior : bool;
  Codec : runtime_Codec;
  Client : HTTPClient;
  Poller : option PollFunc;
  Sync : bool;
  PollPeriod : Duration;
  Timeout : Duration
}.

Definition set_PollPeriod (c : RESTClient) (d : Duration) : RESTClient :=
  mkRESTClient (baseURL c) (apiVersion c) (LegacyBehavior c) (Codec c)
    (Client c) (Poller c) (Sync c) d (Timeout c).

(** ** The store and the effects *)

Inductive event :=
| Glog_Infof (msg : string)
| Time_Sleep (d : Duration).

Record World := mkWorld {
  urls : gmap loc URL;
  clients : gmap loc RESTClient;
  events : list event
}.

(** A Go computation: it panics ([None]) or returns a value and the store it
    leaves. *)
Definition Go (A : Type) : Type := World -> option (A * World).

#[global] Instance Go_ret : MRet Go := fun A (a : A) w => Some (a, w).

#[global] Instance Go_bind : MBind Go := fun A B (k : A -> Go B) (m : Go A) w =>
  match m w with
  | Some (a, w') => k a w'
  | None => None
  end.

Definition fresh_loc {V} (h : gmap loc V) : loc := fresh (dom h).

(** [*p] on a [*url.URL]. *)
Definition load_URL (p : ptr) : Go URL :=
  fun w => match p with
           | Some l => match urls w !! l with
                       | Some u => Some (u, w)
                       | None => None
                       end
           | None => None
           end.

(** Assignment through a [*url.URL]. *)
Definition store_URL (p : ptr) (u : URL) : Go unit :=
  fun w => match p with
           | Some l => match urls w !! l with
                       | Some _ =>
                           Some (tt, mkWorld (<[l := u]> (urls w))
                                             (clients w) (events w))
                       | None => None
                       end
           | None => None
           end.

(** A [url.URL] variable whose address is taken lives in a new cell. *)
Definition new_URL (u : URL) : Go ptr :=
  fun w => let l := fresh_loc (urls w) in
           Some (Some l, mkWorld (<[l := u]> (urls w)) (clients w) (events w)).

(** [&RESTClient{...}]. *)
Definition new_RESTClient (c : RESTClient) : Go ptr :=
  fun w => let l := fresh_loc (clients w) in
           Some (Some l, mkWorld (urls w) (<[l := c]> (clients w)) (events w)).

(** [*c] on a [*RESTClient]. *)
Definition load_RESTClient (c : ptr) : Go RESTClient :=
  fun w => match c with
           | Some l => match clients w !! l with
                       | Some cl => Some (cl, w)
                       | None => None
                       end
           | None => None
           end.

(** [c.PollPeriod = d]. *)
Definition assign_PollPeriod (c : ptr) (d : Duration) : Go unit :=
  fun w => match c with
           | Some l => match clients w !! l with
                       | Some cl =>
                           Some (tt, mkWorld (urls w)
                                   (<[l := set_PollPeriod cl d]> (clients w))
                                   (events w))
                       | None => None
                       end
           | None => None
           end.

Definition emit (e : event) : Go unit :=
  fun w => Some (tt, mkWorld (urls w) (clients w) (events w ++ [e])).

Definition glog_Infof (msg : string) : Go unit := emit (Glog_Infof msg).

Definition time_Sleep (d : Duration) : Go unit := emit (Time_Sleep d).

(** [time.Sleep] pauses the goroutine for at least [d]; a negative or zero
    [d] returns immediately.  [blocked] is the time a log of events is
    guaranteed to have kept the caller paused. *)
Fixpoint blocked (es : list event) : Z :=
  match es with
  | [] => 0
  | Time_Sleep d :: es' => Z.max 0 d + blocked es'
  | Glog_Infof _ :: es' => blocked es'
  end.

(** ** restclient.go *)

Definition NewRESTClient (baseURL : ptr) (apiVersion : string)
    (c : runtime_Codec) (legacyBehavior : bool) : Go ptr :=
  u ← load_URL baseURL;
  base ← new_URL u;
  b ← load_URL base;
  (if negb (strings_HasSuffix (Path b) "/")
   then store_URL base (set_Path b (Path b +:+ "/"))
   else mret tt);;
  b ← load_URL base;
  store_URL base (set_RawQuery b "");;
  b ← load_URL base;
  store_URL base (set_Fragment b "");;
  new_RESTClient
    (mkRESTClient base apiVersion legacyBehavior c HTTPClientNil None
                  false (time_Second * 2) 0).

Definition Verb (c : ptr) (verb : string) : Go Request.t :=
  cl ← load_RESTClient c;
  let poller :=
    match Poller cl with
    | Some p => p
    | None => DefaultPoll_of c
    end in
  mret (Request.Timeout
         (Request.Sync
            (Request.Poller
               (Request.NewRequest (Client cl) verb (baseURL cl) (Codec cl)
                                   (LegacyBehavior cl) (LegacyBehavior cl))
               (Some poller))
            (Sync cl))
         (Timeout cl)).



Definition Get (c : ptr) : Go Request.t := Verb c "GET".


Definition Operation (c : ptr) (name : string) : Go Request.t :=
  r ← Get c;
  mret (Request.NoPoll
         (Request.Sync (Request.Name (Request.Resource r "operations") name)
                       false)).

(** The result is a request pointer and a bool; a nil request is [None]. *)
Definition DefaultPoll (c : ptr) (name : string)
    : Go (option Request.t * bool) :=
  cl ← load_RESTClient c;
  if PollPeriod cl =? 0 then mret (None, false)
  else
    glog_Infof ("Waiting for completion of operation " +:+ name);;
    cl ← load_RESTClient c;
    time_Sleep (PollPeriod cl);;
    r ← Operation c name;
    mret (Some (Request.Poller r (Some (DefaultPoll_of c))), true).

Definition APIVersion (c : ptr) : Go string :=
  cl ← load_RESTClient c;
  mret (apiVersion cl).

(** Calling a [PollFunc] value: a method value runs [DefaultPoll] on the
    receiver it bound; [lits] interprets the caller's own functions. *)
Definition call_PollFunc
    (lits : positive -> string -> Go (option Request.t * bool))
    (f : PollFunc) (name : string) : Go (option Request.t * bool) :=
  match f with
  | DefaultPoll_of c => DefaultPoll c name
  | PollFunc_lit id => lits id name
  end.

(** ** Derived readings of the code, used to state its properties *)

(** What the assignments of [NewRESTClient] leave in its copy of [u]. *)
Definition normalized (u : URL) : URL :=
  mkURL (Scheme u) (Opaque u) (User u) (Host u)
        (if strings_HasSuffix (Path u) "/" then Path u else Path u +:+ "/")
        "" "".

(** The client [NewRESTClient] builds around the copy at [base]. *)
Definition constructed (base : loc) (apiVersion : string) (c : runtime_Codec)
    (legacyBehavior : bool) : RESTClient :=
  mkRESTClient (Some base) apiVersion legacyBehavior c HTTPClientNil None
               false 2000000000 0.

(** [*c.baseURL]: the base address a client holds. *)
Definition read_base (c : ptr) : Go URL :=
  cl ← load_RESTClient c;
  load_URL (baseURL cl).

(** The poller [Verb] installs: the explicit override when there is one, the
    client's own [DefaultPoll] otherwise. *)
Definition effective_poller (c : ptr) (cl : RESTClient) : PollFunc :=
  match Poller cl with
  | Some p => p
  | None => DefaultPoll_of c
  end.

(** ** Sample stores *)

Definition sample_url : URL :=
  mkURL "http" "" None "host" "/api" "watch=true" "top".

Definition sample_url_slash : URL :=
  mkURL "http" "" None "host" "/api/" "" "".

(** Not an address any parser would hand out: no scheme, no host, a space
    and a stray percent sign in the path. *)
Definition sample_url_malformed : URL :=
  mkURL "" "" None "" "%zz not a path" "" "".

Definition store_of (u : URL) : World := mkWorld {[ 5%positive := u ]} ∅ [].

(** ** Sample clients *)

Definition sample_client (period : Duration) : RESTClient :=
  mkRESTClient (Some 5%positive) "v1" false CodecNil HTTPClientNil None false
               period 0.

(** A client whose every configurable field was changed after construction. *)
Definition sample_client_custom : RESTClient :=
  mkRESTClient (Some 5%positive) "v1beta1" true (CodecRef 2)
               (HTTPClientRef 3) (Some (PollFunc_lit 4)) true 500 30.

Definition client_store (cl : RESTClient) : World :=
  mkWorld {[ 5%positive := sample_url_slash ]} {[ 7%positive := cl ]} [].

(** ** Callers *)

(** [n] successive calls [c.DefaultPoll(name)], as a caller waiting on an
    operation issues them, collecting what each call returned. *)
Fixpoint poll_times (n : nat) (c : ptr) (name : string)
    : Go (list (option Request.t * bool)) :=
  match n with
  | O => mret []
  | S n' =>
      r ← DefaultPoll c name;
      rs ← poll_times n' c name;
      mret (r :: rs)
  end.

(** ** Unfolding a computation *)

Ltac run_go :=
  unfold mbind, mret, Go_bind, Go_ret, load_URL, store_URL, new_URL,
    new_RESTClient, load_RESTClient, assign_PollPeriod, glog_Infof,
    time_Sleep, emit; simpl.

(** * Properties *)

(** ** Suffixes *)

Section Suffix.

Local Open Scope nat_scope.

Lemma length_app_string (s t : string) :
  String.length (s +:+ t) = String.length s + String.length t.
Proof. induction s as [|a s IH]; simpl; [reflexivity | now rewrite IH]. Qed.

Lemma substring_all (s : string) : substring 0 (String.length s) s = s.
Proof. induction s as [|a s IH]; simpl; [reflexivity | now rewrite IH]. Qed.

Lemma substring_skip_front (front s : string) :
  substring (String.length front) (String.length s) (front +:+ s) = s.
Proof.
  induction front as [|a front IH]; simpl.
  - apply substring_all.
  - exact IH.
Qed.

Lemma substring_split (s : string) (n : nat) :
  n <= String.length s ->
  s = substring 0 n s +:+ substring n (String.length s - n) s.
Proof.
  revert n. induction s as [|a s IH]; intros n Hn; simpl in *.
  - destruct n; [reflexivity | lia].
  - destruct n as [|n]; simpl.
    + now rewrite substring_all.
    + change (String a s = String a (substring 0 n s
                 +:+ substring n (String.length s - n) s)).
      f_equal. apply IH. lia.
Qed.

(** [strings.HasSuffix] decides [ends_with]. *)
Lemma strings_HasSuffix_spec (s suffix : string) :
  strings_HasSuffix s suffix = true <-> ends_with s suffix.
Proof.
  unfold strings_HasSuffix, ends_with. split.
  - intros H. apply andb_prop in H as [Hlen Heq].
    apply Nat.leb_le in Hlen. apply String.eqb_eq in Heq.
    exists (substring 0 (String.length s - String.length suffix) s).
    pose proof (substring_split s (String.length s - String.length suffix))
      as Hs.
    replace (String.length s - (String.length s - String.length suffix))
      with (String.length suffix) in Hs by lia.
    rewrite Heq in Hs. apply Hs. lia.
  - intros [front ->]. rewrite length_app_string.
    apply andb_true_intro. split.
    + apply Nat.leb_le. lia.
    + replace (String.length front + String.length suffix
               - String.length suffix) with (String.length front) by lia.
      rewrite substring_skip_front. apply String.eqb_refl.
Qed.

Lemma strings_HasSuffix_false (s suffix : string) :
  strings_HasSuffix s suffix = false <-> ~ ends_with s suffix.
Proof.
  rewrite <- strings_HasSuffix_spec.
  destruct (strings_HasSuffix s suffix); split; congruence.
Qed.

End Suffix.

(** ** Running the constructor *)

Lemma fresh_loc_None {V} (h : gmap loc V) : h !! fresh_loc h = None.
Proof. apply not_elem_of_dom. unfold fresh_loc. apply is_fresh. Qed.

Lemma fresh_loc_ne {V} (h : gmap loc V) (l : loc) (v : V) :
  h !! l = Some v -> fresh_loc h <> l.
Proof. intros Hl Heq. rewrite <- Heq, fresh_loc_None in Hl. discriminate. Qed.

(** The constructor never panics on a valid pointer, and its whole effect is
    two allocations: the normalized copy and the client. *)
Lemma NewRESTClient_run (w : World) (l : loc) (u : URL) (v : string)
    (c : runtime_Codec) (lb : bool) :
  urls w !! l = Some u ->
  NewRESTClient (Some l) v c lb w =
    Some (Some (fresh_loc (clients w)),
          mkWorld (<[fresh_loc (urls w) := normalized u]> (urls w))
                  (<[fresh_loc (clients w) :=
                       constructed (fresh_loc (urls w)) v c lb]> (clients w))
                  (events w)).
Proof.
  intros Hl. unfold NewRESTClient. run_go. rewrite Hl. simpl.
  rewrite lookup_insert_eq. unfold normalized, constructed.
  destruct (strings_HasSuffix (Path u) "/"); simpl;
    repeat (rewrite ?lookup_insert_eq, ?insert_insert_eq; simpl);
    reflexivity.
Qed.

(** A nil base address is dereferenced by [base := *baseURL]. *)
Lemma NewRESTClient_nil (w : World) (v : string) (c : runtime_Codec)
    (lb : bool) :
  NewRESTClient None v c lb w = None.
Proof. reflexivity. Qed.

Lemma read_base_constructed (w : World) (l : loc) (u : URL) (v : string)
    (c : runtime_Codec) (lb : bool) (p : ptr) (w' : World) :
  urls w !! l = Some u ->
  NewRESTClient (Some l) v c lb w = Some (p, w') ->
  read_base p w' = Some (normalized u, w').
Proof.
  intros Hl Hrun. rewrite (NewRESTClient_run w l u v c lb Hl) in Hrun.
  injection Hrun as <- <-.
  unfold read_base. run_go. rewrite lookup_insert_eq. simpl.
  now rewrite lookup_insert_eq.
Qed.

Example NewRESTClient_sample :
  (p ← NewRESTClient (Some 5%positive) "v1" CodecNil false; read_base p)
    (store_of sample_url)
  ≫= (λ r, Some (fst r))
  = Some (mkURL "http" "" None "host" "/api/" "" "").
Proof. vm_compute. reflexivity. Qed.

(** ** The constructor's claims *)

(** C1: for every base address handed to [NewRESTClient], the path of the
    constructed client's base address ends in "/", that path is the supplied
    one with exactly one "/" appended when the supplied path did not end in
    one, and the query string and the fragment are empty whatever the
    supplied address carried. *)
Theorem NewRESTClient_base_normalized (w : World) (l : loc) (u : URL)
    (v : string) (cd : runtime_Codec) (lb : bool) :
  urls w !! l = Some u ->
  exists (c : ptr) (w' : World) (b : URL),
    NewRESTClient (Some l) v cd lb w = Some (c, w')
    /\ read_base c w' = Some (b, w')
    /\ ends_with (Path b) "/"
    /\ (~ ends_with (Path u) "/" -> Path b = Path u +:+ "/")
    /\ RawQuery b = ""
    /\ Fragment b = "".
Proof.
  intros Hl.
  exists (Some (fresh_loc (clients w))). eexists. exists (normalized u).
  split; [apply (NewRESTClient_run w l u v cd lb Hl) |].
  split.
  { eapply read_base_constructed; [exact Hl |].
    apply (NewRESTClient_run w l u v cd lb Hl). }
  unfold normalized; simpl.
  destruct (strings_HasSuffix (Path u) "/") eqn:Hs.
  - apply strings_HasSuffix_spec in Hs. repeat split; try assumption.
    intros Hn. contradiction.
  - repeat split.
    exists (Path u). reflexivity.
Qed.

Lemma NewRESTClient_base_normalized_witness :
  exists (c : ptr) (w' : World) (b : URL),
    NewRESTClient (Some 5%positive) "v1" CodecNil false (store_of sample_url)
      = Some (c, w')
    /\ read_base c w' = Some (b, w')
    /\ ends_with (Path b) "/"
    /\ (~ ends_with (Path sample_url) "/" ->
        Path b = Path sample_url +:+ "/")
    /\ RawQuery b = ""
    /\ Fragment b = "".
Proof.
  apply (NewRESTClient_base_normalized (store_of sample_url) 5%positive
           sample_url "v1" CodecNil false).
  reflexivity.
Defined.

(** C5, as stated, fails: no base address, however malformed, makes the
    constructor report a failure.  It takes a parsed [url.URL] and has no
    error result; whenever the pointer it is given holds an address, it
    returns.  Handed an address with no scheme, no host and a path that is
    not a path, it returns a client whose base is that address with "/"
    appended. *)
Lemma NewRESTClient_never_reports_failure :
  (p ← NewRESTClient (Some 5%positive) "v1" CodecNil false; read_base p)
    (store_of sample_url_malformed)
  ≫= (λ r, Some (fst r))
  = Some (mkURL "" "" None "" "%zz not a path/" "" "")
  /\ ~ exists (w : World) (l : loc) (u : URL) (v : string)
             (cd : runtime_Codec) (lb : bool),
        urls w !! l = Some u /\ NewRESTClient (Some l) v cd lb w = None.
Proof.
  split; [vm_compute; reflexivity |].
  intros (w & l & u & v & cd & lb & Hl & Hfail).
  rewrite (NewRESTClient_run w l u v cd lb Hl) in Hfail. discriminate.
Qed.

(** C5, amended: the constructor validates nothing.  For every address value
    behind the pointer, well formed or not, it returns a client, and that
    client's base address is the normalized copy of the value. *)
Theorem NewRESTClient_no_validation (w : World) (l : loc) (u : URL)
    (v : string) (cd : runtime_Codec) (lb : bool) :
  urls w !! l = Some u ->
  exists (c : loc) (w' : World),
    NewRESTClient (Some l) v cd lb w = Some (Some c, w')
    /\ read_base (Some c) w' = Some (normalized u, w').
Proof.
  intros Hl. exists (fresh_loc (clients w)). eexists.
  split; [apply (NewRESTClient_run w l u v cd lb Hl) |].
  eapply read_base_constructed; [exact Hl |].
  apply (NewRESTClient_run w l u v cd lb Hl).
Qed.

Lemma NewRESTClient_no_validation_witness :
  exists (c : loc) (w' : World),
    NewRESTClient (Some 5%positive) "v1" CodecNil false
      (store_of sample_url_malformed) = Some (Some c, w')
    /\ read_base (Some c) w' = Some (normalized sample_url_malformed, w').
Proof.
  apply (NewRESTClient_no_validation (store_of sample_url_malformed)
           5%positive sample_url_malformed "v1" CodecNil false).
  reflexivity.
Defined.

(** C7: normalization leaves a normalized address alone.  When the supplied
    path already ends in "/" and the address has neither query string nor
    fragment, the constructed client's base address is field for field the
    supplied one, so it renders to the same string. *)
Theorem NewRESTClient_idempotent (w : World) (l : loc) (u : URL)
    (v : string) (cd : runtime_Codec) (lb : bool) :
  urls w !! l = Some u ->
  ends_with (Path u) "/" ->
  RawQuery u = "" ->
  Fragment u = "" ->
  exists (c : ptr) (w' : World),
    NewRESTClient (Some l) v cd lb w = Some (c, w')
    /\ read_base c w' = Some (u, w')
    /\ forall render : URL -> string,
         (r ← read_base c; mret (render r)) w' = Some (render u, w').
Proof.
  intros Hl Hs Hq Hf.
  assert (Hn : normalized u = u).
  { unfold normalized. apply strings_HasSuffix_spec in Hs. rewrite Hs.
    destruct u; simpl in *. now subst. }
  pose proof (NewRESTClient_run w l u v cd lb Hl) as Hrun.
  pose proof (read_base_constructed w l u v cd lb _ _ Hl Hrun) as Hb.
  rewrite Hn in Hrun, Hb.
  eexists. eexists. split; [exact Hrun |]. split; [exact Hb |].
  intros render. unfold mbind, Go_bind. rewrite Hb. reflexivity.
Qed.

Lemma NewRESTClient_idempotent_witness :
  exists (c : ptr) (w' : World),
    NewRESTClient (Some 5%positive) "v1" CodecNil false
      (store_of sample_url_slash) = Some (c, w')
    /\ read_base c w' = Some (sample_url_slash, w')
    /\ forall render : URL -> string,
         (r ← read_base c; mret (render r)) w'
         = Some (render sample_url_slash, w').
Proof.
  apply (NewRESTClient_idempotent (store_of sample_url_slash) 5%positive
           sample_url_slash "v1" CodecNil false).
  - reflexivity.
  - exists "/api". reflexivity.
  - reflexivity.
  - reflexivity.
Defined.

(** C8: the constructor works on a copy.  After it returns, the cell the
    caller passed still holds the address it held before, as does every
    other address and client that existed; the client's base address lives in
    a different cell, and nothing was logged or slept on. *)
Theorem NewRESTClient_frame (w : World) (l : loc) (u : URL)
    (v : string) (cd : runtime_Codec) (lb : bool) :
  urls w !! l = Some u ->
  exists (c : loc) (w' : World) (cl : RESTClient),
    NewRESTClient (Some l) v cd lb w = Some (Some c, w')
    /\ urls w' !! l = Some u
    /\ (forall (q : loc) (x : URL),
          urls w !! q = Some x -> urls w' !! q = Some x)
    /\ (forall (q : loc) (x : RESTClient),
          clients w !! q = Some x -> clients w' !! q = Some x)
    /\ clients w' !! c = Some cl
    /\ baseURL cl <> Some l
    /\ events w' = events w.
Proof.
  intros Hl. exists (fresh_loc (clients w)). eexists.
  exists (constructed (fresh_loc (urls w)) v cd lb).
  split; [apply (NewRESTClient_run w l u v cd lb Hl) |]. simpl.
  assert (Hurls : forall (q : loc) (x : URL),
             urls w !! q = Some x ->
             <[fresh_loc (urls w) := normalized u]> (urls w) !! q = Some x).
  { intros q x Hq. rewrite lookup_insert_ne; [exact Hq |].
    eapply fresh_loc_ne, Hq. }
  split; [apply Hurls, Hl |].
  split; [exact Hurls |].
  split.
  { intros q x Hq. rewrite lookup_insert_ne; [exact Hq |].
    eapply fresh_loc_ne, Hq. }
  split; [apply lookup_insert_eq |].
  split; [| reflexivity].
  intros Heq. injection Heq as Heq. exact (fresh_loc_ne _ _ _ Hl Heq).
Qed.

Lemma NewRESTClient_frame_witness :
  exists (c : loc) (w' : World) (cl : RESTClient),
    NewRESTClient (Some 5%positive) "v1" CodecNil false (store_of sample_url)
      = Some (Some c, w')
    /\ urls w' !! 5%positive = Some sample_url
    /\ (forall (q : loc) (x : URL),
          urls (store_of sample_url) !! q = Some x -> urls w' !! q = Some x)
    /\ (forall (q : loc) (x : RESTClient),
          clients (store_of sample_url) !! q = Some x ->
          clients w' !! q = Some x)
    /\ clients w' !! c = Some cl
    /\ baseURL cl <> Some 5%positive
    /\ events w' = events (store_of sample_url).
Proof.
  apply (NewRESTClient_frame (store_of sample_url) 5%positive sample_url
           "v1" CodecNil false).
  reflexivity.
Defined.

(** ** Running the verbs and the poller *)

Lemma Verb_run (w : World) (l : loc) (cl : RESTClient) (verb : string) :
  clients w !! l = Some cl ->
  Verb (Some l) verb w =
    Some (Request.mk (Client cl) verb (baseURL cl) (Codec cl)
            (LegacyBehavior cl) (LegacyBehavior cl) "" ""
            (Some (effective_poller (Some l) cl)) (Sync cl) (Timeout cl),
          w).
Proof. intros Hl. unfold Verb. run_go. rewrite Hl. reflexivity. Qed.

Lemma Operation_run (w : World) (l : loc) (cl : RESTClient) (name : string) :
  clients w !! l = Some cl ->
  Operation (Some l) name w =
    Some (Request.mk (Client cl) "GET" (baseURL cl) (Codec cl)
            (LegacyBehavior cl) (LegacyBehavior cl) "operations" name
            None false (Timeout cl),
          w).
Proof.
  intros Hl. unfold Operation, Get, mbind, Go_bind.
  rewrite (Verb_run w l cl "GET" Hl). reflexivity.
Qed.

Lemma DefaultPoll_stop (w : World) (l : loc) (cl : RESTClient)
    (name : string) :
  clients w !! l = Some cl ->
  PollPeriod cl = 0 ->
  DefaultPoll (Some l) name w = Some ((None, false), w).
Proof.
  intros Hl Hz. unfold DefaultPoll. run_go. rewrite Hl, Hz. reflexivity.
Qed.

Lemma DefaultPoll_continue (w : World) (l : loc) (cl : RESTClient)
    (name : string) :
  clients w !! l = Some cl ->
  PollPeriod cl <> 0 ->
  DefaultPoll (Some l) name w =
    Some ((Some (Request.mk (Client cl) "GET" (baseURL cl) (Codec cl)
                   (LegacyBehavior cl) (LegacyBehavior cl) "operations" name
                   (Some (DefaultPoll_of (Some l))) false (Timeout cl)),
           true),
          mkWorld (urls w) (clients w)
            (events w
             ++ [Glog_Infof ("Waiting for completion of operation " +:+ name);
                 Time_Sleep (PollPeriod cl)])).
Proof.
  intros Hl Hnz. unfold DefaultPoll. run_go. rewrite Hl.
  apply Z.eqb_neq in Hnz. rewrite Hnz. simpl. rewrite Hl.
  match goal with
  | |- match Operation ?c ?n ?w0 with _ => _ end = _ =>
      rewrite (Operation_run w0 l cl n Hl)
  end.
  simpl. rewrite <- app_assoc. reflexivity.
Qed.

Lemma blocked_app (es fs : list event) :
  blocked (es ++ fs) = blocked es + blocked fs.
Proof.
  induction es as [|[msg|d] es IH]; simpl; rewrite ?IH; lia.
Qed.

Example DefaultPoll_sample_off :
  DefaultPoll (Some 7%positive) "op1" (client_store (sample_client 0))
  = Some ((None, false), client_store (sample_client 0)).
Proof. vm_compute. reflexivity. Qed.

Example DefaultPoll_sample_events :
  DefaultPoll (Some 7%positive) "op1" (client_store (sample_client 2000000000))
  ≫= (λ r, Some (events (snd r)))
  = Some [Glog_Infof "Waiting for completion of operation op1";
          Time_Sleep 2000000000].
Proof. vm_compute. reflexivity. Qed.

(** ** The poller's claims *)

(** C2: with a zero [PollPeriod], [DefaultPoll] returns a nil request and
    "do not continue" for every operation name, and leaves the store and the
    event log as they were: it neither logs nor sleeps. *)
Theorem DefaultPoll_zero_period (w : World) (l : loc) (cl : RESTClient)
    (name : string) :
  clients w !! l = Some cl ->
  PollPeriod cl = 0 ->
  exists w' : World,
    DefaultPoll (Some l) name w = Some ((None, false), w')
    /\ w' = w
    /\ blocked (events w') = blocked (events w).
Proof.
  intros Hl Hz. exists w.
  split; [apply (DefaultPoll_stop w l cl name Hl Hz) |].
  split; reflexivity.
Qed.

Lemma DefaultPoll_zero_period_witness :
  exists w' : World,
    DefaultPoll (Some 7%positive) "op1" (client_store (sample_client 0))
      = Some ((None, false), w')
    /\ w' = client_store (sample_client 0)
    /\ blocked (events w') = blocked (events (client_store (sample_client 0))).
Proof.
  apply (DefaultPoll_zero_period (client_store (sample_client 0)) 7%positive
           (sample_client 0) "op1").
  - reflexivity.
  - reflexivity.
Defined.

(** C3: with a nonzero [PollPeriod], [DefaultPoll] sleeps for that period,
    so the caller has been held for at least one poll period when it
    returns; it then returns "continue" and a non-nil request: a GET on the
    "operations" collection for the same operation name, with the same
    client's [DefaultPoll] installed as its poller. *)
Theorem DefaultPoll_nonzero_period (w : World) (l : loc) (cl : RESTClient)
    (name : string) :
  clients w !! l = Some cl ->
  PollPeriod cl <> 0 ->
  exists (r : Request.t) (w' : World),
    DefaultPoll (Some l) name w = Some ((Some r, true), w')
    /\ events w' =
         (events w
          ++ [Glog_Infof ("Waiting for completion of operation " +:+ name);
              Time_Sleep (PollPeriod cl)])%list
    /\ blocked (events w) + PollPeriod cl <= blocked (events w')
    /\ Request.verb r = "GET"
    /\ Request.resource r = "operations"
    /\ Request.resourceName r = name
    /\ Request.poller r = Some (DefaultPoll_of (Some l)).
Proof.
  intros Hl Hnz. eexists. eexists.
  split; [apply (DefaultPoll_continue w l cl name Hl Hnz) |]. simpl.
  split; [reflexivity |].
  split; [| repeat split].
  rewrite blocked_app. simpl. lia.
Qed.

Lemma DefaultPoll_nonzero_period_witness :
  exists (r : Request.t) (w' : World),
    DefaultPoll (Some 7%positive) "op1"
      (client_store (sample_client 2000000000)) = Some ((Some r, true), w')
    /\ events w' =
         (events (client_store (sample_client 2000000000))
          ++ [Glog_Infof ("Waiting for completion of operation " +:+ "op1");
              Time_Sleep (PollPeriod (sample_client 2000000000))])%list
    /\ blocked (events (client_store (sample_client 2000000000)))
       + PollPeriod (sample_client 2000000000) <= blocked (events w')
    /\ Request.verb r = "GET"
    /\ Request.resource r = "operations"
    /\ Request.resourceName r = "op1"
    /\ Request.poller r = Some (DefaultPoll_of (Some 7%positive)).
Proof.
  apply (DefaultPoll_nonzero_period (client_store (sample_client 2000000000))
           7%positive (sample_client 2000000000) "op1").
  - reflexivity.
  - simpl. lia.
Defined.

(** C4: for every name, [Operation] returns a builder for a GET on the
    "operations" collection with exactly that name, with the sync flag false
    and no poller installed, whatever the client's own [Sync] and [Poller]
    are. *)
Theorem Operation_request (w : World) (l : loc) (cl : RESTClient)
    (name : string) :
  clients w !! l = Some cl ->
  exists r : Request.t,
    Operation (Some l) name w = Some (r, w)
    /\ Request.verb r = "GET"
    /\ Request.resource r = "operations"
    /\ Request.resourceName r = name
    /\ Request.sync r = false
    /\ Request.poller r = None.
Proof.
  intros Hl. eexists.
  split; [apply (Operation_run w l cl name Hl) |].
  repeat split.
Qed.

Lemma Operation_request_witness :
  exists r : Request.t,
    Operation (Some 7%positive) "op1" (client_store sample_client_custom)
      = Some (r, client_store sample_client_custom)
    /\ Request.verb r = "GET"
    /\ Request.resource r = "operations"
    /\ Request.resourceName r = "op1"
    /\ Request.sync r = false
    /\ Request.poller r = None.
Proof.
  apply (Operation_request (client_store sample_client_custom) 7%positive
           sample_client_custom "op1").
  reflexivity.
Defined.

(** C6: for every verb, [Verb] returns a builder seeded with the client's
    transport handle, that verb, the client's base address, codec and legacy
    flag (for both legacy rules), its sync flag and its timeout, and whose
    poller is the client's [Poller] when that is set and the client's
    [DefaultPoll] otherwise. *)
Theorem Verb_request (w : World) (l : loc) (cl : RESTClient)
    (verb : string) :
  clients w !! l = Some cl ->
  exists r : Request.t,
    Verb (Some l) verb w = Some (r, w)
    /\ Request.client r = Client cl
    /\ Request.verb r = verb
    /\ Request.baseURL r = baseURL cl
    /\ Request.codec r = Codec cl
    /\ Request.namespaceInQuery r = LegacyBehavior cl
    /\ Request.preserveResourceCase r = LegacyBehavior cl
    /\ Request.sync r = Sync cl
    /\ Request.timeout r = Timeout cl
    /\ (forall p : PollFunc,
          Poller cl = Some p -> Request.poller r = Some p)
    /\ (Poller cl = None ->
          Request.poller r = Some (DefaultPoll_of (Some l))).
Proof.
  intros Hl. eexists.
  split; [apply (Verb_run w l cl verb Hl) |]. simpl.
  unfold effective_poller.
  repeat split; try reflexivity.
  - intros p Hp. now rewrite Hp.
  - intros Hp. now rewrite Hp.
Qed.

Lemma Verb_request_witness :
  exists r : Request.t,
    Verb (Some 7%positive) "PATCH" (client_store sample_client_custom)
      = Some (r, client_store sample_client_custom)
    /\ Request.client r = Client sample_client_custom
    /\ Request.verb r = "PATCH"
    /\ Request.baseURL r = baseURL sample_client_custom
    /\ Request.codec r = Codec sample_client_custom
    /\ Request.namespaceInQuery r = LegacyBehavior sample_client_custom
    /\ Request.preserveResourceCase r = LegacyBehavior sample_client_custom
    /\ Request.sync r = Sync sample_client_custom
    /\ Request.timeout r = Timeout sample_client_custom
    /\ (forall p : PollFunc,
          Poller sample_client_custom = Some p -> Request.poller r = Some p)
    /\ (Poller sample_client_custom = None ->
          Request.poller r = Some (DefaultPoll_of (Some 7%positive))).
Proof.
  apply (Verb_request (client_store sample_client_custom) 7%positive
           sample_client_custom "PATCH").
  reflexivity.
Defined.

(** C9: only a period of exactly zero turns polling off.  With a strictly
    negative [PollPeriod], [DefaultPoll] takes the continuing branch for
    every operation name: it returns a non-nil request and "continue", and
    the sleep it performs, being of negative duration, holds the caller for
    no time at all. *)
Theorem DefaultPoll_negative_period (w : World) (l : loc) (cl : RESTClient)
    (name : string) :
  clients w !! l = Some cl ->
  PollPeriod cl < 0 ->
  exists (r : Request.t) (w' : World),
    DefaultPoll (Some l) name w = Some ((Some r, true), w')
    /\ DefaultPoll (Some l) name w <> Some ((None, false), w)
    /\ In (Time_Sleep (PollPeriod cl)) (events w')
    /\ blocked (events w') = blocked (events w).
Proof.
  intros Hl Hneg.
  assert (Hnz : PollPeriod cl <> 0) by lia.
  eexists. eexists.
  split; [apply (DefaultPoll_continue w l cl name Hl Hnz) |].
  split.
  { rewrite (DefaultPoll_continue w l cl name Hl Hnz). discriminate. }
  simpl. split.
  - apply in_or_app. right. simpl. auto.
  - rewrite blocked_app. simpl. lia.
Qed.

Lemma DefaultPoll_negative_period_witness :
  exists (r : Request.t) (w' : World),
    DefaultPoll (Some 7%positive) "op1" (client_store (sample_client (-1)))
      = Some ((Some r, true), w')
    /\ DefaultPoll (Some 7%positive) "op1" (client_store (sample_client (-1)))
       <> Some ((None, false), client_store (sample_client (-1)))
    /\ In (Time_Sleep (PollPeriod (sample_client (-1)))) (events w')
    /\ blocked (events w')
       = blocked (events (client_store (sample_client (-1)))).
Proof.
  apply (DefaultPoll_negative_period (client_store (sample_client (-1)))
           7%positive (sample_client (-1)) "op1").
  - reflexivity.
  - simpl. lia.
Defined.

Lemma assign_PollPeriod_run (w : World) (l : loc) (cl : RESTClient)
    (d : Duration) :
  clients w !! l = Some cl ->
  assign_PollPeriod (Some l) d w =
    Some (tt, mkWorld (urls w) (<[l := set_PollPeriod cl d]> (clients w))
                (events w)).
Proof. intros Hl. unfold assign_PollPeriod. rewrite Hl. reflexivity. Qed.

(** One poll, then [c.PollPeriod = 0], then the poller the first poll
    installed is called. *)
Example poll_chain_sample :
  ('(r, _) ← DefaultPoll (Some 7%positive) "op1";
   assign_PollPeriod (Some 7%positive) 0;;
   match r ≫= Request.poller with
   | Some f => call_PollFunc (λ _ _ _, None) f "op1"
   | None => mret (r, true)
   end) (client_store (sample_client 2000000000))
  ≫= (λ r, Some (fst r))
  = Some (None, false).
Proof. vm_compute. reflexivity. Qed.

(** C10: [DefaultPoll] reads the client's [PollPeriod] when it is called.
    The request a poll returns carries the method value bound to the client
    pointer, not to a period; calling it on the unchanged store polls again,
    and calling it after [PollPeriod] was set to zero returns a nil request
    and "do not continue" without logging or sleeping, which ends the
    chain. *)
Theorem DefaultPoll_reads_current_period
    (lits : positive -> string -> Go (option Request.t * bool))
    (w : World) (l : loc) (cl : RESTClient) (name : string) :
  clients w !! l = Some cl ->
  PollPeriod cl <> 0 ->
  exists (r : Request.t) (w1 : World) (f : PollFunc) (w2 : World),
    DefaultPoll (Some l) name w = Some ((Some r, true), w1)
    /\ Request.poller r = Some f
    /\ f = DefaultPoll_of (Some l)
    /\ (exists (r' : Request.t) (w1' : World),
          call_PollFunc lits f name w1 = Some ((Some r', true), w1'))
    /\ assign_PollPeriod (Some l) 0 w1 = Some (tt, w2)
    /\ call_PollFunc lits f name w2 = Some ((None, false), w2).
Proof.
  intros Hl Hnz.
  eexists. eexists. exists (DefaultPoll_of (Some l)). eexists.
  split; [apply (DefaultPoll_continue w l cl name Hl Hnz) |].
  split; [reflexivity |].
  split; [reflexivity |].
  split.
  { eexists. eexists. simpl.
    apply (DefaultPoll_continue _ l cl name); [exact Hl | exact Hnz]. }
  split.
  { apply (assign_PollPeriod_run _ l cl 0). exact Hl. }
  simpl. apply (DefaultPoll_stop _ l (set_PollPeriod cl 0) name).
  - simpl. apply lookup_insert_eq.
  - reflexivity.
Qed.

Lemma DefaultPoll_reads_current_period_witness :
  exists (r : Request.t) (w1 : World) (f : PollFunc) (w2 : World),
    DefaultPoll (Some 7%positive) "op1"
      (client_store (sample_client 2000000000)) = Some ((Some r, true), w1)
    /\ Request.poller r = Some f
    /\ f = DefaultPoll_of (Some 7%positive)
    /\ (exists (r' : Request.t) (w1' : World),
          call_PollFunc (fun _ _ _ => None) f "op1" w1
          = Some ((Some r', true), w1'))
    /\ assign_PollPeriod (Some 7%positive) 0 w1 = Some (tt, w2)
    /\ call_PollFunc (fun _ _ _ => None) f "op1" w2 = Some ((None, false), w2).
Proof.
  apply (DefaultPoll_reads_current_period (fun _ _ _ => None)
           (client_store (sample_client 2000000000)) 7%positive
           (sample_client 2000000000) "op1").
  - reflexivity.
  - simpl. lia.
Defined.

(** * Further properties of restclient.go *)

(** ** The suffix test the constructor relies on *)

(** X1: [strings.HasSuffix(s, suffix)], as the constructor calls it, is true
    exactly when [s] is some string followed by [suffix]; in particular the
    empty path has no "/" suffix and every string has the empty suffix. *)
Theorem strings_HasSuffix_decides_ends_with (s suffix : string) :
  (strings_HasSuffix s suffix = true <-> ends_with s suffix)
  /\ strings_HasSuffix "" "/" = false
  /\ strings_HasSuffix s "" = true
  /\ strings_HasSuffix (s +:+ suffix) suffix = true.
Proof.
  split; [apply strings_HasSuffix_spec |].
  split; [reflexivity |].
  split.
  - apply strings_HasSuffix_spec. exists s.
    induction s as [|a s IH]; [reflexivity |].
    change (String a s = String a (s +:+ "")). now f_equal.
  - apply strings_HasSuffix_spec. exists s. reflexivity.
Qed.

(** ** What the constructor keeps *)

Lemma normalized_idem (u : URL) : normalized (normalized u) = normalized u.
Proof.
  assert (Hs : strings_HasSuffix (Path (normalized u)) "/" = true).
  { unfold normalized. simpl.
    destruct (strings_HasSuffix (Path u) "/") eqn:Hu; [exact Hu |].
    apply strings_HasSuffix_spec. exists (Path u). reflexivity. }
  unfold normalized at 1. rewrite Hs. reflexivity.
Qed.

(** X2: the constructor touches nothing but the path, the query string and
    the fragment: the constructed client's base address has the scheme, the
    opaque part, the user information and the host of the supplied address,
    and its path is the supplied path or the supplied path plus "/". *)
Theorem NewRESTClient_keeps_authority (w : World) (l : loc) (u : URL)
    (v : string) (cd : runtime_Codec) (lb : bool) :
  urls w !! l = Some u ->
  exists (c : ptr) (w' : World) (b : URL),
    NewRESTClient (Some l) v cd lb w = Some (c, w')
    /\ read_base c w' = Some (b, w')
    /\ Scheme b = Scheme u
    /\ Opaque b = Opaque u
    /\ User b = User u
    /\ Host b = Host u
    /\ (Path b = Path u \/ Path b = Path u +:+ "/").
Proof.
  intros Hl.
  pose proof (NewRESTClient_run w l u v cd lb Hl) as Hrun.
  pose proof (read_base_constructed w l u v cd lb _ _ Hl Hrun) as Hb.
  eexists. eexists. exists (normalized u).
  split; [exact Hrun |]. split; [exact Hb |].
  unfold normalized; simpl.
  destruct (strings_HasSuffix (Path u) "/"); auto 10.
Qed.

Lemma NewRESTClient_keeps_authority_witness :
  exists (c : ptr) (w' : World) (b : URL),
    NewRESTClient (Some 5%positive) "v1" CodecNil false (store_of sample_url)
      = Some (c, w')
    /\ read_base c w' = Some (b, w')
    /\ Scheme b = Scheme sample_url
    /\ Opaque b = Opaque sample_url
    /\ User b = User sample_url
    /\ Host b = Host sample_url
    /\ (Path b = Path sample_url \/ Path b = Path sample_url +:+ "/").
Proof.
  apply (NewRESTClient_keeps_authority (store_of sample_url) 5%positive
           sample_url "v1" CodecNil false).
  reflexivity.
Defined.

(** X3: an address with an empty path and an address whose path is "/" both
    give a client whose base path is exactly "/": the root is never left
    empty and never doubled. *)
Theorem NewRESTClient_root_path (w : World) (l : loc) (u : URL)
    (v : string) (cd : runtime_Codec) (lb : bool) :
  urls w !! l = Some u ->
  Path u = "" \/ Path u = "/" ->
  exists (c : ptr) (w' : World) (b : URL),
    NewRESTClient (Some l) v cd lb w = Some (c, w')
    /\ read_base c w' = Some (b, w')
    /\ Path b = "/".
Proof.
  intros Hl Hp.
  pose proof (NewRESTClient_run w l u v cd lb Hl) as Hrun.
  pose proof (read_base_constructed w l u v cd lb _ _ Hl Hrun) as Hb.
  eexists. eexists. exists (normalized u).
  split; [exact Hrun |]. split; [exact Hb |].
  unfold normalized; simpl. destruct Hp as [-> | ->]; reflexivity.
Qed.

Lemma NewRESTClient_root_path_witness :
  exists (c : ptr) (w' : World) (b : URL),
    NewRESTClient (Some 5%positive) "v1" CodecNil false
      (store_of (mkURL "https" "" None "host:8080" "" "x=1" ""))
      = Some (c, w')
    /\ read_base c w' = Some (b, w')
    /\ Path b = "/".
Proof.
  apply (NewRESTClient_root_path
           (store_of (mkURL "https" "" None "host:8080" "" "x=1" ""))
           5%positive (mkURL "https" "" None "host:8080" "" "x=1" "")
           "v1" CodecNil false).
  - reflexivity.
  - left. reflexivity.
Defined.

Lemma read_base_mono (c : ptr) (w w' : World) (b : URL) :
  read_base c w = Some (b, w) ->
  (forall (q : loc) (x : URL), urls w !! q = Some x -> urls w' !! q = Some x) ->
  (forall (q : loc) (x : RESTClient),
     clients w !! q = Some x -> clients w' !! q = Some x) ->
  read_base c w' = Some (b, w').
Proof.
  unfold read_base. run_go. intros Hb Hu Hc.
  destruct c as [lc|]; [| discriminate].
  destruct (clients w !! lc) as [cl|] eqn:Hcl; [| discriminate].
  rewrite (Hc lc cl Hcl). simpl in *.
  destruct (baseURL cl) as [lb|]; [| discriminate].
  destruct (urls w !! lb) as [x|] eqn:Hx; [| discriminate].
  rewrite (Hu lb x Hx). congruence.
Qed.

Lemma NewRESTClient_extends (w : World) (l : loc) (u : URL) (v : string)
    (cd : runtime_Codec) (lb : bool) (c : ptr) (w' : World) :
  urls w !! l = Some u ->
  NewRESTClient (Some l) v cd lb w = Some (c, w') ->
  (forall (q : loc) (x : URL), urls w !! q = Some x -> urls w' !! q = Some x)
  /\ (forall (q : loc) (x : RESTClient),
        clients w !! q = Some x -> clients w' !! q = Some x).
Proof.
  intros Hl Hrun. rewrite (NewRESTClient_run w l u v cd lb Hl) in Hrun.
  injection Hrun as <- <-. simpl. split; intros q x Hq;
    (rewrite lookup_insert_ne; [exact Hq | eapply fresh_loc_ne, Hq]).
Qed.

(** X4: building a second client from the base address of a constructed
    client changes nothing: the second client's base address equals the
    first client's. *)
Theorem NewRESTClient_renormalize (w : World) (l : loc) (u : URL)
    (v v' : string) (cd cd' : runtime_Codec) (lb lb' : bool) :
  urls w !! l = Some u ->
  exists (c1 : ptr) (w1 : World) (cl1 : RESTClient) (b : URL)
         (c2 : ptr) (w2 : World),
    NewRESTClient (Some l) v cd lb w = Some (c1, w1)
    /\ load_RESTClient c1 w1 = Some (cl1, w1)
    /\ read_base c1 w1 = Some (b, w1)
    /\ NewRESTClient (baseURL cl1) v' cd' lb' w1 = Some (c2, w2)
    /\ read_base c2 w2 = Some (b, w2)
    /\ read_base c1 w2 = Some (b, w2).
Proof.
  intros Hl.
  pose proof (NewRESTClient_run w l u v cd lb Hl) as Hrun.
  pose proof (read_base_constructed w l u v cd lb _ _ Hl Hrun) as Hb.
  set (w1 := mkWorld (<[fresh_loc (urls w) := normalized u]> (urls w))
               (<[fresh_loc (clients w) :=
                    constructed (fresh_loc (urls w)) v cd lb]> (clients w))
               (events w)) in *.
  assert (Hl1 : urls w1 !! fresh_loc (urls w) = Some (normalized u))
    by apply lookup_insert_eq.
  assert (Hc1 : clients w1 !! fresh_loc (clients w)
                = Some (constructed (fresh_loc (urls w)) v cd lb))
    by apply lookup_insert_eq.
  pose proof (NewRESTClient_run w1 _ _ v' cd' lb' Hl1) as Hrun2.
  pose proof (read_base_constructed w1 _ _ v' cd' lb' _ _ Hl1 Hrun2) as Hb2.
  rewrite normalized_idem in Hrun2, Hb2.
  exists (Some (fresh_loc (clients w))), w1,
    (constructed (fresh_loc (urls w)) v cd lb), (normalized u).
  eexists. eexists.
  split; [exact Hrun |].
  split; [unfold load_RESTClient; now rewrite Hc1 |].
  split; [exact Hb |].
  split; [exact Hrun2 |].
  split; [exact Hb2 |].
  destruct (NewRESTClient_extends w1 _ _ v' cd' lb' _ _ Hl1 Hrun2)
    as [Hu Hc].
  exact (read_base_mono _ w1 _ _ Hb Hu Hc).
Qed.

Lemma NewRESTClient_renormalize_witness :
  exists (c1 : ptr) (w1 : World) (cl1 : RESTClient) (b : URL)
         (c2 : ptr) (w2 : World),
    NewRESTClient (Some 5%positive) "v1" CodecNil false (store_of sample_url)
      = Some (c1, w1)
    /\ load_RESTClient c1 w1 = Some (cl1, w1)
    /\ read_base c1 w1 = Some (b, w1)
    /\ NewRESTClient (baseURL cl1) "v2" (CodecRef 1) true w1 = Some (c2, w2)
    /\ read_base c2 w2 = Some (b, w2)
    /\ read_base c1 w2 = Some (b, w2).
Proof.
  apply (NewRESTClient_renormalize (store_of sample_url) 5%positive
           sample_url "v1" "v2" CodecNil (CodecRef 1) false true).
  reflexivity.
Defined.

(** ** Copies are private *)

(** X5: two clients built from the same address share neither a client cell
    nor a base cell: they are distinct clients with distinct base cells,
    neither of which is the caller's cell; both bases hold the normalized
    address, and building the second client leaves the first one as it was.
    (The user information a [url.URL] points to is immutable and is carried
    here as part of the value.) *)
Theorem NewRESTClient_twice_independent (w : World) (l : loc) (u : URL)
    (v1 v2 : string) (cd1 cd2 : runtime_Codec) (lb1 lb2 : bool) :
  urls w !! l = Some u ->
  exists (c1 c2 b1 b2 : loc) (w1 w2 : World) (cl1 cl2 : RESTClient),
    NewRESTClient (Some l) v1 cd1 lb1 w = Some (Some c1, w1)
    /\ NewRESTClient (Some l) v2 cd2 lb2 w1 = Some (Some c2, w2)
    /\ c1 <> c2
    /\ clients w1 !! c1 = Some cl1
    /\ clients w2 !! c1 = Some cl1
    /\ clients w2 !! c2 = Some cl2
    /\ baseURL cl1 = Some b1
    /\ baseURL cl2 = Some b2
    /\ b1 <> b2 /\ b1 <> l /\ b2 <> l
    /\ urls w2 !! b1 = Some (normalized u)
    /\ urls w2 !! b2 = Some (normalized u).
Proof.
  intros Hl.
  pose proof (NewRESTClient_run w l u v1 cd1 lb1 Hl) as Hrun.
  set (w1 := mkWorld (<[fresh_loc (urls w) := normalized u]> (urls w))
               (<[fresh_loc (clients w) :=
                    constructed (fresh_loc (urls w)) v1 cd1 lb1]> (clients w))
               (events w)) in *.
  assert (Hb1 : urls w1 !! fresh_loc (urls w) = Some (normalized u))
    by apply lookup_insert_eq.
  assert (Hc1 : clients w1 !! fresh_loc (clients w)
                = Some (constructed (fresh_loc (urls w)) v1 cd1 lb1))
    by apply lookup_insert_eq.
  assert (Hl1 : urls w1 !! l = Some u).
  { unfold w1; simpl. rewrite lookup_insert_ne; [exact Hl |].
    eapply fresh_loc_ne, Hl. }
  pose proof (NewRESTClient_run w1 l u v2 cd2 lb2 Hl1) as Hrun2.
  destruct (NewRESTClient_extends w1 l u v2 cd2 lb2 _ _ Hl1 Hrun2)
    as [Hu Hc].
  exists (fresh_loc (clients w)), (fresh_loc (clients w1)),
    (fresh_loc (urls w)), (fresh_loc (urls w1)), w1.
  eexists. exists (constructed (fresh_loc (urls w)) v1 cd1 lb1),
    (constructed (fresh_loc (urls w1)) v2 cd2 lb2).
  split; [exact Hrun |]. split; [exact Hrun2 |].
  split. { intros Heq. symmetry in Heq. exact (fresh_loc_ne _ _ _ Hc1 Heq). }
  split; [exact Hc1 |].
  split; [exact (Hc _ _ Hc1) |].
  split; [apply lookup_insert_eq |].
  split; [reflexivity |]. split; [reflexivity |].
  split. { intros Heq. symmetry in Heq. exact (fresh_loc_ne _ _ _ Hb1 Heq). }
  split; [exact (fresh_loc_ne _ _ _ Hl) |].
  split; [exact (fresh_loc_ne _ _ _ Hl1) |].
  split; [exact (Hu _ _ Hb1) |].
  apply lookup_insert_eq.
Qed.

Lemma NewRESTClient_twice_independent_witness :
  exists (c1 c2 b1 b2 : loc) (w1 w2 : World) (cl1 cl2 : RESTClient),
    NewRESTClient (Some 5%positive) "v1" CodecNil false (store_of sample_url)
      = Some (Some c1, w1)
    /\ NewRESTClient (Some 5%positive) "v2" (CodecRef 1) true w1
       = Some (Some c2, w2)
    /\ c1 <> c2
    /\ clients w1 !! c1 = Some cl1
    /\ clients w2 !! c1 = Some cl1
    /\ clients w2 !! c2 = Some cl2
    /\ baseURL cl1 = Some b1
    /\ baseURL cl2 = Some b2
    /\ b1 <> b2 /\ b1 <> 5%positive /\ b2 <> 5%positive
    /\ urls w2 !! b1 = Some (normalized sample_url)
    /\ urls w2 !! b2 = Some (normalized sample_url).
Proof.
  apply (NewRESTClient_twice_independent (store_of sample_url) 5%positive
           sample_url "v1" "v2" CodecNil (CodecRef 1) false true).
  reflexivity.
Defined.

(** X6: the client does not see what the caller does to its own address
    afterwards: once the constructor has returned, assigning any other value
    through the caller's pointer leaves the client's base address as
    constructed. *)
Theorem NewRESTClient_base_survives_caller (w : World) (l : loc)
    (u u' : URL) (v : string) (cd : runtime_Codec) (lb : bool) :
  urls w !! l = Some u ->
  exists (c : ptr) (w1 w2 : World),
    NewRESTClient (Some l) v cd lb w = Some (c, w1)
    /\ store_URL (Some l) u' w1 = Some (tt, w2)
    /\ load_URL (Some l) w2 = Some (u', w2)
    /\ read_base c w2 = Some (normalized u, w2).
Proof.
  intros Hl.
  pose proof (NewRESTClient_run w l u v cd lb Hl) as Hrun.
  assert (Hne : fresh_loc (urls w) <> l) by (eapply fresh_loc_ne, Hl).
  eexists. eexists. eexists.
  split; [exact Hrun |].
  split.
  { unfold store_URL. simpl. rewrite lookup_insert_ne by exact Hne.
    rewrite Hl. reflexivity. }
  split.
  { unfold load_URL. simpl. now rewrite lookup_insert_eq. }
  unfold read_base. run_go. rewrite lookup_insert_eq. simpl.
  rewrite lookup_insert_ne by congruence.
  now rewrite lookup_insert_eq.
Qed.

Lemma NewRESTClient_base_survives_caller_witness :
  exists (c : ptr) (w1 w2 : World),
    NewRESTClient (Some 5%positive) "v1" CodecNil false (store_of sample_url)
      = Some (c, w1)
    /\ store_URL (Some 5%positive) sample_url_malformed w1 = Some (tt, w2)
    /\ load_URL (Some 5%positive) w2 = Some (sample_url_malformed, w2)
    /\ read_base c w2 = Some (normalized sample_url, w2).
Proof.
  apply (NewRESTClient_base_survives_caller (store_of sample_url) 5%positive
           sample_url sample_url_malformed "v1" CodecNil false).
  reflexivity.
Defined.

(** ** The constructed client at work *)

(** X7: [APIVersion] returns exactly the version string given to the
    constructor, and still does after [PollPeriod] has been reassigned. *)
Theorem APIVersion_is_constructor_argument (w : World) (l : loc) (u : URL)
    (v : string) (cd : runtime_Codec) (lb : bool) (d : Duration) :
  urls w !! l = Some u ->
  exists (c : ptr) (w1 w2 : World),
    NewRESTClient (Some l) v cd lb w = Some (c, w1)
    /\ APIVersion c w1 = Some (v, w1)
    /\ assign_PollPeriod c d w1 = Some (tt, w2)
    /\ APIVersion c w2 = Some (v, w2).
Proof.
  intros Hl.
  pose proof (NewRESTClient_run w l u v cd lb Hl) as Hrun.
  eexists. eexists. eexists.
  split; [exact Hrun |].
  split.
  { unfold APIVersion. run_go. now rewrite lookup_insert_eq. }
  split.
  { unfold assign_PollPeriod. simpl. now rewrite lookup_insert_eq. }
  unfold APIVersion. run_go. now rewrite lookup_insert_eq.
Qed.

Lemma APIVersion_is_constructor_argument_witness :
  exists (c : ptr) (w1 w2 : World),
    NewRESTClient (Some 5%positive) "v1beta3" CodecNil false
      (store_of sample_url) = Some (c, w1)
    /\ APIVersion c w1 = Some ("v1beta3", w1)
    /\ assign_PollPeriod c 0 w1 = Some (tt, w2)
    /\ APIVersion c w2 = Some ("v1beta3", w2).
Proof.
  apply (APIVersion_is_constructor_argument (store_of sample_url) 5%positive
           sample_url "v1beta3" CodecNil false 0).
  reflexivity.
Defined.

(** X8: a client straight from the constructor polls every two seconds:
    [DefaultPoll] on it logs the waiting line, sleeps 2,000,000,000 ns and
    returns a request with "continue". *)
Theorem fresh_client_polls_every_two_seconds (w : World) (l : loc) (u : URL)
    (v : string) (cd : runtime_Codec) (lb : bool) (name : string) :
  urls w !! l = Some u ->
  exists (c : ptr) (w1 : World) (r : Request.t) (w2 : World),
    NewRESTClient (Some l) v cd lb w = Some (c, w1)
    /\ DefaultPoll c name w1 = Some ((Some r, true), w2)
    /\ events w2 =
         (events w
          ++ [Glog_Infof ("Waiting for completion of operation " +:+ name);
              Time_Sleep 2000000000])%list
    /\ blocked (events w2) = blocked (events w) + 2000000000.
Proof.
  intros Hl.
  pose proof (NewRESTClient_run w l u v cd lb Hl) as Hrun.
  eexists. eexists. eexists. eexists.
  split; [exact Hrun |].
  split.
  { apply (DefaultPoll_continue _ _
             (constructed (fresh_loc (urls w)) v cd lb) name).
    - simpl. apply lookup_insert_eq.
    - simpl. lia. }
  simpl. split; [reflexivity |].
  rewrite blocked_app. simpl. lia.
Qed.

Lemma fresh_client_polls_every_two_seconds_witness :
  exists (c : ptr) (w1 : World) (r : Request.t) (w2 : World),
    NewRESTClient (Some 5%positive) "v1" CodecNil false (store_of sample_url)
      = Some (c, w1)
    /\ DefaultPoll c "op1" w1 = Some ((Some r, true), w2)
    /\ events w2 =
         (events (store_of sample_url)
          ++ [Glog_Infof ("Waiting for completion of operation " +:+ "op1");
              Time_Sleep 2000000000])%list
    /\ blocked (events w2)
       = blocked (events (store_of sample_url)) + 2000000000.
Proof.
  apply (fresh_client_polls_every_two_seconds (store_of sample_url)
           5%positive sample_url "v1" CodecNil false "op1").
  reflexivity.
Defined.



(** ** Receivers, panics and what the methods leave untouched *)

Lemma load_RESTClient_cases (c : ptr) (w : World) :
  (exists (l : loc) (cl : RESTClient),
      c = Some l /\ clients w !! l = Some cl)
  \/ load_RESTClient c w = None.
Proof.
  destruct c as [l|]; [| right; reflexivity].
  destruct (clients w !! l) as [cl|] eqn:Hl.
  - left. exists l, cl. split; [reflexivity | exact Hl].
  - right. unfold load_RESTClient. now rewrite Hl.
Qed.


Lemma Verb_panics (c : ptr) (verb : string) (w : World) :
  load_RESTClient c w = None -> Verb c verb w = None.
Proof. intros Hn. unfold Verb, mbind, Go_bind. now rewrite Hn. Qed.

Lemma Operation_panics (c : ptr) (name : string) (w : World) :
  load_RESTClient c w = None -> Operation c name w = None.
Proof.
  intros Hn. unfold Operation, Get, mbind, Go_bind.
  now rewrite (Verb_panics c "GET" w Hn).
Qed.

Lemma DefaultPoll_panics (c : ptr) (name : string) (w : World) :
  load_RESTClient c w = None -> DefaultPoll c name w = None.
Proof. intros Hn. unfold DefaultPoll, mbind, Go_bind. now rewrite Hn. Qed.


Lemma DefaultPoll_cases (w : World) (l : loc) (cl : RESTClient)
    (name : string) :
  clients w !! l = Some cl ->
  (PollPeriod cl = 0
   /\ DefaultPoll (Some l) name w = Some ((None, false), w))
  \/ (PollPeriod cl <> 0
      /\ exists r : Request.t,
           DefaultPoll (Some l) name w =
             Some ((Some r, true),
                   mkWorld (urls w) (clients w)
                     (events w
                      ++ [Glog_Infof
                            ("Waiting for completion of operation " +:+ name);
                          Time_Sleep (PollPeriod cl)]))).
Proof.
  intros Hl. destruct (Z.eq_dec (PollPeriod cl) 0) as [Hz | Hnz].
  - left. split; [exact Hz | apply (DefaultPoll_stop w l cl name Hl Hz)].
  - right. split; [exact Hnz |]. eexists.
    apply (DefaultPoll_continue w l cl name Hl Hnz).
Qed.


(** X11: beginning a request reads the client and changes nothing: whenever
    [Verb] (hence [Post], [Put], [Get], [Delete]) or [Operation] returns,
    every client and address cell and the event log are as before. *)
Theorem request_building_is_read_only (c : ptr) (s : string) (w : World)
    (r : Request.t) (w' : World) :
  Verb c s w = Some (r, w') \/ Operation c s w = Some (r, w') ->
  w' = w.
Proof.
  intros H.
  destruct (load_RESTClient_cases c w) as [(l & cl & -> & Hl) | Hn].
  - rewrite (Verb_run w l cl s Hl), (Operation_run w l cl s Hl) in H.
    destruct H as [H | H]; congruence.
  - rewrite (Verb_panics c s w Hn), (Operation_panics c s w Hn) in H.
    destruct H as [H | H]; discriminate.
Qed.

Lemma request_building_is_read_only_witness :
  client_store sample_client_custom = client_store sample_client_custom.
Proof.
  apply (request_building_is_read_only (Some 7%positive) "DELETE"
           (client_store sample_client_custom)
           (Request.mk (HTTPClientRef 3) "DELETE" (Some 5%positive)
              (CodecRef 2) true true "" "" (Some (PollFunc_lit 4)) true 30)
           (client_store sample_client_custom)).
  left. vm_compute. reflexivity.
Defined.

(** X12: whatever [DefaultPoll] returns, it has not touched any client or
    address; it has appended nothing or exactly the log line and the sleep to
    the event log; and its two results agree: the request is non-nil exactly
    when it says "continue", and when it says "do not continue" nothing at
    all has happened. *)
Theorem DefaultPoll_outcome (c : ptr) (name : string) (w : World)
    (r : option Request.t) (k : bool) (w' : World) :
  DefaultPoll c name w = Some ((r, k), w') ->
  urls w' = urls w
  /\ clients w' = clients w
  /\ (k = true <-> r <> None)
  /\ (k = false -> w' = w)
  /\ exists es : list event,
       events w' = (events w ++ es)%list
       /\ (es = []
           \/ exists d : Duration,
                es = [Glog_Infof
                        ("Waiting for completion of operation " +:+ name);
                      Time_Sleep d]).
Proof.
  intros H.
  destruct (load_RESTClient_cases c w) as [(l & cl & -> & Hl) | Hn].
  - destruct (DefaultPoll_cases w l cl name Hl) as [[_ Hs] | [_ [r0 Hs]]];
      rewrite Hs in H; injection H as <- <- <-; simpl.
    + repeat split; try congruence.
      exists []. split; [now rewrite app_nil_r | now left].
    + repeat split; try congruence.
      eexists. split; [reflexivity |]. right. eexists. reflexivity.
  - rewrite (DefaultPoll_panics c name w Hn) in H. discriminate.
Qed.

Lemma DefaultPoll_outcome_witness :
  urls (client_store (sample_client 0)) = urls (client_store (sample_client 0))
  /\ clients (client_store (sample_client 0))
     = clients (client_store (sample_client 0))
  /\ (false = true <-> (None : option Request.t) <> None)
  /\ (false = false ->
      client_store (sample_client 0) = client_store (sample_client 0))
  /\ exists es : list event,
       events (client_store (sample_client 0))
       = (events (client_store (sample_client 0)) ++ es)%list
       /\ (es = []
           \/ exists d : Duration,
                es = [Glog_Infof
                        ("Waiting for completion of operation " +:+ "op1");
                      Time_Sleep d]).
Proof.
  apply (DefaultPoll_outcome (Some 7%positive) "op1"
           (client_store (sample_client 0)) None false
           (client_store (sample_client 0))).
  vm_compute. reflexivity.
Defined.

(** ** Polling again and again *)

Lemma blocked_rounds (es : list event) (n : nat) :
  blocked (concat (List.repeat es n)) = Z.of_nat n * blocked es.
Proof.
  induction n as [|n IH].
  - reflexivity.
  - change (concat (List.repeat es (S n)))
      with (es ++ concat (List.repeat es n))%list.
    rewrite blocked_app, IH. lia.
Qed.

Lemma poll_times_run (l : loc) (cl : RESTClient) (name : string) (n : nat) :
  forall w : World,
    clients w !! l = Some cl ->
    PollPeriod cl <> 0 ->
    poll_times n (Some l) name w =
      Some (List.repeat
              (Some (Request.mk (Client cl) "GET" (baseURL cl) (Codec cl)
                       (LegacyBehavior cl) (LegacyBehavior cl) "operations"
                       name (Some (DefaultPoll_of (Some l))) false
                       (Timeout cl)),
               true) n,
            mkWorld (urls w) (clients w)
              (events w
               ++ concat
                    (List.repeat
                       [Glog_Infof
                          ("Waiting for completion of operation " +:+ name);
                        Time_Sleep (PollPeriod cl)] n))).
Proof.
  induction n as [|n IH]; intros w Hl Hnz.
  - destruct w as [us cs es]. simpl. unfold mret, Go_ret.
    now rewrite app_nil_r.
  - change (poll_times (S n) (Some l) name)
      with (r ← DefaultPoll (Some l) name;
            rs ← poll_times n (Some l) name;
            mret (r :: rs)).
    unfold mbind, Go_bind.
    rewrite (DefaultPoll_continue w l cl name Hl Hnz).
    rewrite IH by (simpl; assumption). simpl.
    unfold mret, Go_ret. rewrite <- app_assoc. reflexivity.
Qed.

(** X13: the default poller has no memory and no backoff.  On a client with
    a nonzero period, [n] successive calls all return "continue" with the
    same request, leave clients and addresses alone, append [n] identical
    log-and-sleep rounds, and hold the caller for [n] times the period (for
    no time when the period is negative). *)
Theorem poll_times_no_backoff (n : nat) (w : World) (l : loc)
    (cl : RESTClient) (name : string) :
  clients w !! l = Some cl ->
  PollPeriod cl <> 0 ->
  exists (r : Request.t) (w' : World),
    poll_times n (Some l) name w = Some (List.repeat (Some r, true) n, w')
    /\ urls w' = urls w
    /\ clients w' = clients w
    /\ events w' =
         (events w
          ++ concat
               (List.repeat
                  [Glog_Infof
                     ("Waiting for completion of operation " +:+ name);
                   Time_Sleep (PollPeriod cl)] n))%list
    /\ blocked (events w')
       = blocked (events w) + Z.of_nat n * Z.max 0 (PollPeriod cl).
Proof.
  intros Hl Hnz. eexists. eexists.
  split; [apply (poll_times_run l cl name n w Hl Hnz) |]. simpl.
  repeat split.
  rewrite blocked_app, blocked_rounds. simpl. lia.
Qed.

Lemma poll_times_no_backoff_witness :
  exists (r : Request.t) (w' : World),
    poll_times 3 (Some 7%positive) "op1" (client_store (sample_client 500))
      = Some (List.repeat (Some r, true) 3, w')
    /\ urls w' = urls (client_store (sample_client 500))
    /\ clients w' = clients (client_store (sample_client 500))
    /\ events w' =
         (events (client_store (sample_client 500))
          ++ concat
               (List.repeat
                  [Glog_Infof
                     ("Waiting for completion of operation " +:+ "op1");
                   Time_Sleep (PollPeriod (sample_client 500))] 3))%list
    /\ blocked (events w')
       = blocked (events (client_store (sample_client 500)))
         + Z.of_nat 3 * Z.max 0 (PollPeriod (sample_client 500)).
Proof.
  apply (poll_times_no_backoff 3 (client_store (sample_client 500))
           7%positive (sample_client 500) "op1").
  - reflexivity.
  - simpl. lia.
Defined.

(** X14: the request [DefaultPoll] hands back is configured from the client,
    not from the call being polled for: it carries the client's transport
    handle, base address, codec, legacy flag and timeout, and has the sync
    flag off, also when the client itself has [Sync] on and a [Poller] of its
    own. *)
Theorem DefaultPoll_request_configuration (w : World) (l : loc)
    (cl : RESTClient) (name : string) :
  clients w !! l = Some cl ->
  PollPeriod cl <> 0 ->
  exists (r : Request.t) (w' : World),
    DefaultPoll (Some l) name w = Some ((Some r, true), w')
    /\ Request.client r = Client cl
    /\ Request.baseURL r = baseURL cl
    /\ Request.codec r = Codec cl
    /\ Request.namespaceInQuery r = LegacyBehavior cl
    /\ Request.preserveResourceCase r = LegacyBehavior cl
    /\ Request.timeout r = Timeout cl
    /\ Request.sync r = false.
Proof.
  intros Hl Hnz. eexists. eexists.
  split; [apply (DefaultPoll_continue w l cl name Hl Hnz) |].
  repeat split.
Qed.

Lemma DefaultPoll_request_configuration_witness :
  exists (r : Request.t) (w' : World),
    DefaultPoll (Some 7%positive) "op1" (client_store sample_client_custom)
      = Some ((Some r, true), w')
    /\ Request.client r = Client sample_client_custom
    /\ Request.baseURL r = baseURL sample_client_custom
    /\ Request.codec r = Codec sample_client_custom
    /\ Request.namespaceInQuery r = LegacyBehavior sample_client_custom
    /\ Request.preserveResourceCase r = LegacyBehavior sample_client_custom
    /\ Request.timeout r = Timeout sample_client_custom
    /\ Request.sync r = false.
Proof.
  apply (DefaultPoll_request_configuration
           (client_store sample_client_custom) 7%positive
           sample_client_custom "op1").
  - reflexivity.
  - simpl. lia.
Defined.
